(** * Gnosis Safe deployment helpers (price_estimation_abci/helpers/gnosis_safe.py)

    A shallow embedding of [get_deploy_safe_tx] (the deployment planner)
    and [_build_tx_deploy_proxy_contract_with_nonce] (the proxy transaction
    builder).  The chain is reached through RPC clients; every RPC call is
    recorded in a query log, and a failing RPC (the client answers [None])
    surfaces as [ChainQueryFailed].  Python's [raise ValueError(msg)] is
    [ValueError msg].  ABI encoding (web3's contract functions) and
    [checksum_address] (helpers/base.py) are external collaborators and are
    kept abstract as section variables. *)

From Stdlib Require Import ZArith Lia List String Bool.
Import ListNotations.
Open Scope string_scope.
Open Scope Z_scope.

Definition Address := string.
Definition bytes := list Byte.byte.

(** A web3 transaction dict; keys that may be absent are options. *)
Record TxParams := mkTxParams {
  tx_from : Address;
  tx_to : option Address;
  tx_data : bytes;
  tx_gas : option Z;
  tx_gasPrice : option Z;
  tx_nonce : option Z
}.

(** The dict returned by [buildTransaction]: ["gas"] is always filled in. *)
Record BuiltTx := mkBuiltTx {
  b_from : Address;
  b_to : Address;
  b_data : bytes;
  b_gas : Z;
  b_gasPrice : option Z;
  b_nonce : option Z
}.

(** The answers of one chain RPC endpoint; [None] is an RPC failure. *)
Record Client := mkClient {
  get_balance : Address -> option Z;
  get_network : option string;
  getCode : Address -> option bytes;
  call : TxParams -> option Address;   (* eth_call, result decoded *)
  estimate_gas : TxParams -> option Z;
  get_transaction_count : Address -> option Z
}.

(** Which client an RPC goes to: the one built from a node url, or the
    process-global [web3.auto.w3]. *)
Inductive endpoint := Node (url : string) | Auto.

Inductive query :=
| QBalance (a : Address)
| QNetwork
| QGetCode (a : Address)
| QCall (t : TxParams)
| QEstimateGas (t : TxParams)
| QTxCount (a : Address).

Definition event := (endpoint * query)%type.

Inductive error := ValueError (msg : string) | ChainQueryFailed.

Inductive result (A : Type) := Ok (a : A) | Err (e : error).
Arguments Ok {A} a.
Arguments Err {A} e.

(** Error-and-log monad: the log is the list of RPC calls issued so far. *)
Definition M (A : Type) := list event -> list event * result A.

Definition ret {A} (a : A) : M A := fun l => (l, Ok a).

Definition bind {A B} (m : M A) (k : A -> M B) : M B :=
  fun l => match m l with
           | (l', Ok a) => k a l'
           | (l', Err e) => (l', Err e)
           end.

Definition raise {A} (e : error) : M A := fun l => (l, Err e).

Definition rpc {A} (ev : event) (answer : option A) : M A :=
  fun l => (app l [ev], match answer with
                       | Some a => Ok a
                       | None => Err ChainQueryFailed
                       end).

Notation "'do' x <- m ;; k" := (bind m (fun x => k))
  (at level 61, x name, m at next level, right associativity).

Definition SAFE_CONTRACT : Address := "0xd9Db270c1B5E3Bd161E8c8503c55cEABeE709552".
Definition DEFAULT_CALLBACK_HANDLER : Address := "0xf48f2B2d2a534e402487b3ee7C18c33Aec0Fe5e4".
Definition PROXY_FACTORY_CONTRACT : Address := "0xa6B71E26C5e0845f74c812102Ca7114b6a896AB2".
Definition NULL_ADDRESS : Address := "0x0000000000000000000000000000000000000000".

Definition msg_threshold := "Threshold cannot be bigger than the number of unique owners".
Definition msg_funds := "Client does not have any funds".
Definition msg_network := "Network not supported".

(** Python's truthiness of a [bytes] value. *)
Definition is_empty (b : bytes) : bool :=
  match b with [] => true | _ => false end.

(** [random.randint(a, b)] is [a + _randbelow(b - a + 1)]; [randbelow] is
    the draw of [secrets.SystemRandom] for this call. *)
Definition randint (randbelow : Z -> Z) (a b : Z) : Z := a + randbelow (b - a + 1).

Definition _get_nonce (randbelow : Z -> Z) : Z := randint randbelow 0 (2 ^ 256 - 1).

(** [salt_nonce if salt_nonce is not None else _get_nonce()] *)
Definition select_salt (randbelow : Z -> Z) (salt_nonce : option Z) : Z :=
  match salt_nonce with Some s => s | None => _get_nonce randbelow end.

(** [ProxyFactory(address, ethereum_client)]; the client is named by the
    node url it was built from. *)
Record ProxyFactory := mkProxyFactory { pf_address : Address; pf_url : string }.

(** [create_proxy_fn.call({"from": address})]: web3 sends the read-only
    call to the factory with the encoded function as data. *)
Definition create_proxy_call (proxy_factory : ProxyFactory) (address : Address)
    (fn_data : bytes) : TxParams :=
  {| tx_from := address; tx_to := Some (pf_address proxy_factory);
     tx_data := fn_data; tx_gas := None; tx_gasPrice := None; tx_nonce := None |}.

(** The three precondition checks of the planner taken in the order
    threshold, sender balance, code presence: the first one that fails. *)
Definition first_failed_precondition (owners : list Address) (threshold : Z)
    (balance : Z) (code_safe code_factory : bytes) : option error :=
  if Z.of_nat (List.length owners) <? threshold then Some (ValueError msg_threshold)
  else if balance =? 0 then Some (ValueError msg_funds)
  else if is_empty code_safe || is_empty code_factory then Some (ValueError msg_network)
  else None.

Section GnosisSafe.

(** [EthereumClient(node_url)]: the chain behind each node url. *)
Variable EthereumClient : string -> Client.
(** [web3.auto.w3], the auto-configured global client. *)
Variable w3 : Client.
(** [checksum_address] from helpers/base.py. *)
Variable checksum_address : Address -> Address.
(** ABI encoding of [setup(owners, threshold, to, data, fallbackHandler,
    paymentToken, payment, paymentReceiver)] of the Safe v1.3.0 contract. *)
Variable encode_setup :
  list Address -> Z -> Address -> bytes -> Address -> Address -> Z -> Address -> bytes.
(** ABI encoding of [createProxyWithNonce(singleton, initializer, saltNonce)]. *)
Variable encode_createProxyWithNonce : Address -> bytes -> Z -> bytes.

(** web3's [ContractFunction.buildTransaction]: fills in [to] and [data] and
    estimates ["gas"] only when the caller left it out. *)
Definition buildTransaction (ep : endpoint) (c : Client) (to : Address) (data : bytes)
    (p : TxParams) : M BuiltTx :=
  let p := {| tx_from := tx_from p; tx_to := Some to; tx_data := data;
              tx_gas := tx_gas p; tx_gasPrice := tx_gasPrice p; tx_nonce := tx_nonce p |} in
  do g <- match tx_gas p with
       | Some g => ret g
       | None => rpc (ep, QEstimateGas p) (estimate_gas c p)
       end ;;
  ret {| b_from := tx_from p; b_to := to; b_data := data; b_gas := g;
         b_gasPrice := tx_gasPrice p; b_nonce := tx_nonce p |}.

Definition _build_tx_deploy_proxy_contract_with_nonce
    (proxy_factory : ProxyFactory) (master_copy : Address) (address : Address)
    (initializer : bytes) (salt_nonce : Z)
    (gas : option Z) (gas_price : option Z) (nonce : option Z) : M (BuiltTx * Address) :=
  let ep := Node (pf_url proxy_factory) in
  let client := EthereumClient (pf_url proxy_factory) in
  let fn_data := encode_createProxyWithNonce master_copy initializer salt_nonce in
  let tx_parameters := {| tx_from := address; tx_to := None; tx_data := [];
                          tx_gas := None; tx_gasPrice := None; tx_nonce := None |} in
  let call_tx := create_proxy_call proxy_factory address fn_data in
  do contract_address <- rpc (ep, QCall call_tx) (call client call_tx) ;;
  let tx_parameters := match gas_price with
                       | Some gp => {| tx_from := tx_from tx_parameters; tx_to := None; tx_data := [];
                                       tx_gas := tx_gas tx_parameters; tx_gasPrice := Some gp;
                                       tx_nonce := tx_nonce tx_parameters |}
                       | None => tx_parameters
                       end in
  let tx_parameters := match gas with
                       | Some g => {| tx_from := tx_from tx_parameters; tx_to := None; tx_data := [];
                                      tx_gas := Some g; tx_gasPrice := tx_gasPrice tx_parameters;
                                      tx_nonce := tx_nonce tx_parameters |}
                       | None => tx_parameters
                       end in
  let tx_parameters := match nonce with
                       | Some n => {| tx_from := tx_from tx_parameters; tx_to := None; tx_data := [];
                                      tx_gas := tx_gas tx_parameters;
                                      tx_gasPrice := tx_gasPrice tx_parameters; tx_nonce := Some n |}
                       | None => tx_parameters
                       end in
  do tx <- buildTransaction ep client (pf_address proxy_factory) fn_data tx_parameters ;;
  (* tx["gas"] = tx["gas"] + 50000 *)
  let tx := {| b_from := b_from tx; b_to := b_to tx; b_data := b_data tx;
               b_gas := b_gas tx + 50000; b_gasPrice := b_gasPrice tx; b_nonce := b_nonce tx |} in
  (* tx["nonce"] = w3.eth.get_transaction_count(address) *)
  do n <- rpc (Auto, QTxCount address) (get_transaction_count w3 address) ;;
  let tx := {| b_from := b_from tx; b_to := b_to tx; b_data := b_data tx;
               b_gas := b_gas tx; b_gasPrice := b_gasPrice tx; b_nonce := Some n |} in
  ret (tx, contract_address).

Definition get_deploy_safe_tx (randbelow : Z -> Z) (ethereum_node_url : string)
    (sender : Address) (owners : list Address) (threshold : Z)
    (salt_nonce : option Z) : M (BuiltTx * Address) :=
  let salt_nonce := select_salt randbelow salt_nonce in
  let to := NULL_ADDRESS in
  let data : bytes := [] in
  let payment_token := NULL_ADDRESS in
  let payment := 0 in
  let payment_receiver := NULL_ADDRESS in
  if Z.of_nat (List.length owners) <? threshold then raise (ValueError msg_threshold) else
  let safe_contract_address := SAFE_CONTRACT in
  let proxy_factory_address := PROXY_FACTORY_CONTRACT in
  let fallback_handler := DEFAULT_CALLBACK_HANDLER in
  let ethereum_client := EthereumClient ethereum_node_url in
  let ep := Node ethereum_node_url in
  let account_address := checksum_address sender in
  do account_balance <- rpc (ep, QBalance account_address)
                         (get_balance ethereum_client account_address) ;;
  if account_balance =? 0 then raise (ValueError msg_funds) else
  (* the network name is read for the log line *)
  do _ <- rpc (ep, QNetwork) (get_network ethereum_client) ;;
  do code_safe <- rpc (ep, QGetCode safe_contract_address)
                   (getCode ethereum_client safe_contract_address) ;;
  do _ <- (if is_empty code_safe then raise (ValueError msg_network) else
        do code_factory <- rpc (ep, QGetCode proxy_factory_address)
                            (getCode ethereum_client proxy_factory_address) ;;
        if is_empty code_factory then raise (ValueError msg_network) else ret tt) ;;
  let safe_creation_tx_data :=
    encode_setup owners threshold to data fallback_handler payment_token payment
                 payment_receiver in
  let proxy_factory := {| pf_address := proxy_factory_address;
                          pf_url := ethereum_node_url |} in
  _build_tx_deploy_proxy_contract_with_nonce proxy_factory safe_contract_address
    account_address safe_creation_tx_data salt_nonce None None None.

End GnosisSafe.

(** * A concrete chain, used to run the definitions on explicit inputs *)

Definition demo_url : string := "http://localhost:8545".
Definition demo_sender : Address := "0x5aAeb6053F3E94C9b9A09f33669435E7Ef1BeAed".
Definition owner_A : Address := "0xfB6916095ca1df60bB79Ce92cE3Ea74c37c5d359".
Definition owner_B : Address := "0xdbF03B407c01E7cD3CBea99509d93f8DDDC8C6FB".
Definition owner_C : Address := "0xD1220A0cf47c7B9Be7A2E6BA89F429762e7b9aDb".
Definition demo_proxy : Address := "0x1111111111111111111111111111111111111111".

(** An RPC endpoint that answers every query. *)
Definition demo_client (balance : Z) (code : bytes) (count : Z) : Client :=
  mkClient (fun _ => Some balance) (Some "mainnet") (fun _ => Some code)
           (fun _ => Some demo_proxy) (fun _ => Some 120000) (fun _ => Some count).

(** A funded node with the Safe contracts deployed (transaction count 7). *)
Definition demo_node (url : string) : Client :=
  demo_client 1000000000000000000 [Byte.x60; Byte.x80] 7.
(** The same node without any funds. *)
Definition demo_node_unfunded (url : string) : Client :=
  demo_client 0 [Byte.x60; Byte.x80] 7.
(** A funded node on a chain without the Safe contracts. *)
Definition demo_node_bare (url : string) : Client := demo_client 1 [] 7.
(** Two nodes: [demo_url] reports transaction count 7, any other url a
    different chain state with transaction count 11. *)
Definition demo_nodes (url : string) : Client :=
  if String.eqb url demo_url then demo_node url
  else demo_client 5 [Byte.x60; Byte.x80] 11.
(** The global client: it reports transaction count 3. *)
Definition demo_w3 : Client := demo_client 0 [] 3.

(** Encoders standing for the ABI encoding: the 4-byte selectors of
    [setup] and [createProxyWithNonce] followed by the initializer. *)
Definition demo_setup (owners : list Address) (threshold : Z) (to : Address) (data : bytes)
    (fallback_handler payment_token : Address) (payment : Z) (payment_receiver : Address)
    : bytes := [Byte.xb6; Byte.x3e; Byte.x80; Byte.x0d].
Definition demo_create (master_copy : Address) (initializer : bytes) (salt_nonce : Z) : bytes :=
  app [Byte.x16; Byte.x88; Byte.xf0; Byte.xb9] initializer.

Definition demo_pf : ProxyFactory := mkProxyFactory PROXY_FACTORY_CONTRACT demo_url.

Definition demo_builder :=
  _build_tx_deploy_proxy_contract_with_nonce demo_node demo_w3 demo_create.

Definition demo_planner (node : string -> Client) :=
  get_deploy_safe_tx node demo_w3 (fun a => a) demo_setup demo_create (fun _ => 7).


(** What the demo encoders produce: the [createProxyWithNonce] selector
    alone for an empty initializer, and followed by the [setup] selector for
    the planner's initializer. *)
Definition demo_create_empty : bytes := [Byte.x16; Byte.x88; Byte.xf0; Byte.xb9].
Definition demo_deploy_data : bytes :=
  [Byte.x16; Byte.x88; Byte.xf0; Byte.xb9; Byte.xb6; Byte.x3e; Byte.x80; Byte.x0d].

(** A transaction to the factory carrying the global count 3 as nonce. *)
Definition demo_tx (from : Address) (data : bytes) (gas : Z) (gas_price : option Z)
    : BuiltTx :=
  mkBuiltTx from PROXY_FACTORY_CONTRACT data gas gas_price (Some 3).

Section Proofs.

Variable EthereumClient : string -> Client.
Variable w3 : Client.
Variable checksum_address : Address -> Address.
Variable encode_setup :
  list Address -> Z -> Address -> bytes -> Address -> Address -> Z -> Address -> bytes.
Variable encode_createProxyWithNonce : Address -> bytes -> Z -> bytes.

Local Abbreviation builder :=
  (_build_tx_deploy_proxy_contract_with_nonce EthereumClient w3 encode_createProxyWithNonce).
(** Case analysis on every pending [match] of a monadic run. *)
Ltac split_on x :=
  lazymatch x with
  | pair _ _ => fail | Ok _ => fail | Err _ => fail | Some _ => fail | None => fail
  | true => fail | false => fail
  | context [match _ with _ => _ end] => fail
  | _ => lazymatch type of x with
         | prod _ _ => fail
         | result _ => fail
         | _ => destruct x eqn:?
         end
  end.

Ltac crunch :=
  repeat (cbn in *;
          match goal with
          | H : context [match ?x with _ => _ end] |- _ => split_on x
          | |- context [match ?x with _ => _ end] => split_on x
          end);
  try discriminate.

Local Abbreviation planner :=
  (get_deploy_safe_tx EthereumClient w3 checksum_address encode_setup
                      encode_createProxyWithNonce).

(** What a successful builder run returns. *)
Lemma builder_ok (pf : ProxyFactory) (master_copy address : Address) (initializer : bytes)
    (salt_nonce : Z) (gas gas_price nonce : option Z) (l : list event) tx r :
  snd (builder pf master_copy address initializer
         salt_nonce gas gas_price nonce l) = Ok (tx, r) ->
  let c := EthereumClient (pf_url pf) in
  let fn_data := encode_createProxyWithNonce master_copy initializer salt_nonce in
  call c (create_proxy_call pf address fn_data) = Some r /\
  b_data tx = fn_data /\
  b_to tx = pf_address pf /\
  b_from tx = address /\
  (exists k, get_transaction_count w3 address = Some k /\ b_nonce tx = Some k) /\
  (exists g, b_gas tx = g + 50000 /\
     match gas with Some g' => g = g' | None => exists p, estimate_gas c p = Some g end).
Proof.
  unfold builder, _build_tx_deploy_proxy_contract_with_nonce, buildTransaction, bind, rpc, ret.
  simpl.
  destruct (call _ _) as [r0|] eqn:Hc; simpl; [|discriminate].
  destruct gas as [g|]; simpl.
  - destruct gas_price, nonce; simpl;
    destruct (get_transaction_count w3 address) as [k|] eqn:Hk; simpl; try discriminate;
    intros H; injection H as <- <-; simpl;
    repeat split; eauto.
  - destruct gas_price, nonce; simpl;
    (destruct (estimate_gas _ _) as [g|] eqn:He; simpl; [|discriminate]);
    destruct (get_transaction_count w3 address) as [k|] eqn:Hk; simpl; try discriminate;
    intros H; injection H as <- <-; simpl;
    repeat split; eauto.
Qed.

(** A successful planner run is a successful builder run on the factory,
    the master copy, the checksummed sender, the [setup] payload and the
    selected salt, with no overrides. *)
Lemma planner_ok (randbelow : Z -> Z) (url : string) (sender : Address)
    (owners : list Address) (threshold : Z) (salt_nonce : option Z) l tx r :
  snd (planner randbelow url sender owners threshold salt_nonce l) = Ok (tx, r) ->
  exists l',
    snd (builder
           (mkProxyFactory PROXY_FACTORY_CONTRACT url) SAFE_CONTRACT
           (checksum_address sender)
           (encode_setup owners threshold NULL_ADDRESS [] DEFAULT_CALLBACK_HANDLER
                         NULL_ADDRESS 0 NULL_ADDRESS)
           (select_salt randbelow salt_nonce) None None None l') = Ok (tx, r).
Proof.
  unfold planner, get_deploy_safe_tx, bind, rpc, raise, ret. simpl.
  destruct (_ <? _); [discriminate|].
  destruct (get_balance _ _) as [b|]; simpl; [|discriminate].
  destruct (b =? 0); [discriminate|].
  destruct (get_network _); simpl; [|discriminate].
  destruct (getCode _ SAFE_CONTRACT) as [cs|]; simpl; [|discriminate].
  destruct (is_empty cs); [discriminate|].
  destruct (getCode _ PROXY_FACTORY_CONTRACT) as [cf|]; simpl; [|discriminate].
  destruct (is_empty cf); [discriminate|].
  eauto.
Qed.

(** Once the preconditions pass, the planner can only fail on an RPC. *)
Lemma builder_no_value_error pf master_copy address initializer salt_nonce gas gas_price nonce l m :
  snd (builder pf master_copy address initializer
         salt_nonce gas gas_price nonce l) <> Err (ValueError m).
Proof.
  unfold builder, _build_tx_deploy_proxy_contract_with_nonce, buildTransaction, bind, rpc, ret.
  simpl.
  destruct (call _ _); simpl; [|discriminate].
  destruct gas, gas_price, nonce; simpl;
    try (destruct (estimate_gas _ _); simpl; [|discriminate]);
    destruct (get_transaction_count _ _); simpl; discriminate.
Qed.

(** ** C3 (as amended) *)
(** C3: a request whose threshold exceeds the length of the owner list is
    rejected with the threshold error, and the query log is left unchanged:
    no RPC is issued. *)
Theorem threshold_rejected_before_io (randbelow : Z -> Z) (url : string)
    (sender : Address) (owners : list Address) (threshold : Z)
    (salt_nonce : option Z) (l : list event) :
  Z.of_nat (List.length owners) < threshold ->
  planner randbelow url sender owners threshold salt_nonce l
  = (l, Err (ValueError msg_threshold)).
Proof.
  intros H. unfold planner, get_deploy_safe_tx.
  replace (Z.of_nat (List.length owners) <? threshold) with true
    by (symmetry; apply Z.ltb_lt; exact H).
  reflexivity.
Qed.

(** ** C4 *)
(** C4: a request that passes the threshold check and whose sender balance
    is reported as zero fails with the funds error; the only RPC issued is
    the balance query, so no transaction is built. *)
Theorem zero_balance_insufficient_funds (randbelow : Z -> Z) (url : string)
    (sender : Address) (owners : list Address) (threshold : Z)
    (salt_nonce : option Z) (l : list event) :
  threshold <= Z.of_nat (List.length owners) ->
  get_balance (EthereumClient url) (checksum_address sender) = Some 0 ->
  planner randbelow url sender owners threshold salt_nonce l
  = (app l [(Node url, QBalance (checksum_address sender))], Err (ValueError msg_funds)).
Proof.
  intros Ht Hb. unfold planner, get_deploy_safe_tx, bind, rpc, raise.
  replace (Z.of_nat (List.length owners) <? threshold) with false
    by (symmetry; apply Z.ltb_ge; exact Ht).
  rewrite Hb. reflexivity.
Qed.

(** ** C5 *)
(** C5: a request that passes the threshold and funds checks, against a
    client that reports empty code at the Safe master copy or at the proxy
    factory, fails with the network error. *)
Theorem missing_code_unsupported_network (randbelow : Z -> Z) (url : string)
    (sender : Address) (owners : list Address) (threshold : Z)
    (salt_nonce : option Z) (l : list event) (balance : Z) (name : string)
    (code_safe code_factory : bytes) :
  threshold <= Z.of_nat (List.length owners) ->
  get_balance (EthereumClient url) (checksum_address sender) = Some balance ->
  balance <> 0 ->
  get_network (EthereumClient url) = Some name ->
  getCode (EthereumClient url) SAFE_CONTRACT = Some code_safe ->
  getCode (EthereumClient url) PROXY_FACTORY_CONTRACT = Some code_factory ->
  code_safe = [] \/ code_factory = [] ->
  snd (planner randbelow url sender owners threshold salt_nonce l)
  = Err (ValueError msg_network).
Proof.
  intros Ht Hb Hnz Hn Hs Hf Hempty. unfold planner, get_deploy_safe_tx, bind, rpc, raise, ret.
  replace (Z.of_nat (List.length owners) <? threshold) with false
    by (symmetry; apply Z.ltb_ge; exact Ht).
  rewrite Hb. replace (balance =? 0) with false by (symmetry; apply Z.eqb_neq; exact Hnz).
  rewrite Hn, Hs. simpl.
  destruct Hempty as [-> | ->]; simpl; [reflexivity|].
  destruct (is_empty code_safe); simpl; [reflexivity|].
  rewrite Hf. reflexivity.
Qed.

(** ** C6 *)
(** C6: two builder calls with the same factory, master copy, initializer
    and salt, against a client whose read-only simulation answers a fixed
    value [a], both return [a] as the predicted address; each returned
    address is the answer of the simulated [createProxyWithNonce] call. *)
Theorem predicted_address_deterministic (pf : ProxyFactory) (master_copy : Address)
    (initializer : bytes) (salt_nonce : Z) (a : Address)
    (address1 address2 : Address) (gas1 gas2 gas_price1 gas_price2 nonce1 nonce2 : option Z)
    (l1 l2 : list event) (tx1 tx2 : BuiltTx) (r1 r2 : Address) :
  (forall t, call (EthereumClient (pf_url pf)) t = Some a) ->
  snd (builder pf master_copy address1 initializer
         salt_nonce gas1 gas_price1 nonce1 l1) = Ok (tx1, r1) ->
  snd (builder pf master_copy address2 initializer
         salt_nonce gas2 gas_price2 nonce2 l2) = Ok (tx2, r2) ->
  call (EthereumClient (pf_url pf))
    (create_proxy_call pf address1
       (encode_createProxyWithNonce master_copy initializer salt_nonce)) = Some r1 /\
  r1 = a /\ r2 = a.
Proof.
  intros Hfix H1 H2.
  destruct (builder_ok _ _ _ _ _ _ _ _ _ _ _ H1) as [Hc1 _].
  destruct (builder_ok _ _ _ _ _ _ _ _ _ _ _ H2) as [Hc2 _].
  rewrite Hfix in Hc1, Hc2. injection Hc1 as <-. injection Hc2 as <-.
  rewrite Hfix. auto.
Qed.

(** ** C7 *)
(** C7: two successful planner runs with the same owners, threshold and
    supplied salt return the same [data]: the [createProxyWithNonce] call of
    the master copy with the [setup] payload of (owners, threshold, the
    default fallback handler) whose [to], payment token and payment receiver
    are the null address and whose [data] and payment are empty and zero. *)
Theorem deploy_data_idempotent (randbelow1 randbelow2 : Z -> Z) (url1 url2 : string)
    (sender1 sender2 : Address) (owners : list Address) (threshold salt : Z)
    (l1 l2 : list event) (tx1 tx2 : BuiltTx) (r1 r2 : Address) :
  snd (planner randbelow1 url1 sender1 owners threshold (Some salt) l1)
    = Ok (tx1, r1) ->
  snd (planner randbelow2 url2 sender2 owners threshold (Some salt) l2)
    = Ok (tx2, r2) ->
  b_data tx1 = b_data tx2 /\
  b_data tx1 = encode_createProxyWithNonce SAFE_CONTRACT
                 (encode_setup owners threshold NULL_ADDRESS [] DEFAULT_CALLBACK_HANDLER
                               NULL_ADDRESS 0 NULL_ADDRESS) salt.
Proof.
  intros H1 H2.
  destruct (planner_ok _ _ _ _ _ _ _ _ _ H1) as [l1' B1].
  destruct (planner_ok _ _ _ _ _ _ _ _ _ H2) as [l2' B2].
  destruct (builder_ok _ _ _ _ _ _ _ _ _ _ _ B1) as (_ & D1 & _).
  destruct (builder_ok _ _ _ _ _ _ _ _ _ _ _ B2) as (_ & D2 & _).
  simpl in D1, D2. rewrite D1, D2. auto.
Qed.

(** ** C8 *)
(** C8: the salt of a successful deployment is the caller's value when one
    is supplied; otherwise it is the system random draw below [2^256]
    taken as it is, which lies in [0, 2^256 - 1]. *)
Theorem salt_nonce_selection (randbelow : Z -> Z) (url : string) (sender : Address)
    (owners : list Address) (threshold : Z) (salt_nonce : option Z)
    (l : list event) (tx : BuiltTx) (r : Address) :
  0 <= randbelow (2 ^ 256) < 2 ^ 256 ->
  snd (planner randbelow url sender owners threshold salt_nonce l) = Ok (tx, r) ->
  exists salt,
    b_data tx = encode_createProxyWithNonce SAFE_CONTRACT
                  (encode_setup owners threshold NULL_ADDRESS [] DEFAULT_CALLBACK_HANDLER
                                NULL_ADDRESS 0 NULL_ADDRESS) salt /\
    match salt_nonce with
    | Some s => salt = s
    | None => salt = randbelow (2 ^ 256) /\ 0 <= salt <= 2 ^ 256 - 1
    end.
Proof.
  intros Hrb H.
  destruct (planner_ok _ _ _ _ _ _ _ _ _ H) as [l' B].
  destruct (builder_ok _ _ _ _ _ _ _ _ _ _ _ B) as (_ & D & _).
  exists (select_salt randbelow salt_nonce). split; [exact D|].
  destruct salt_nonce as [s|]; [reflexivity|].
  unfold select_salt, _get_nonce, randint.
  replace (2 ^ 256 - 1 - 0 + 1) with (2 ^ 256) by ring.
  split; [ring | lia].
Qed.

(** ** C9 *)
(** C9: against a client that answers the balance, network and code
    queries, the planner's outcome follows the precondition checks in the
    order threshold, balance, code presence: the first failing check gives
    the error (a zero balance wins over missing code), and when all pass no
    precondition error is raised. *)
Theorem precondition_check_order (randbelow : Z -> Z) (url : string)
    (sender : Address) (owners : list Address) (threshold : Z)
    (salt_nonce : option Z) (l : list event) (balance : Z) (name : string)
    (code_safe code_factory : bytes) :
  get_balance (EthereumClient url) (checksum_address sender) = Some balance ->
  get_network (EthereumClient url) = Some name ->
  getCode (EthereumClient url) SAFE_CONTRACT = Some code_safe ->
  getCode (EthereumClient url) PROXY_FACTORY_CONTRACT = Some code_factory ->
  match first_failed_precondition owners threshold balance code_safe code_factory with
  | Some e => snd (planner randbelow url sender owners threshold salt_nonce l) = Err e
  | None => forall m,
      snd (planner randbelow url sender owners threshold salt_nonce l)
      <> Err (ValueError m)
  end.
Proof.
  intros Hb Hn Hs Hf.
  unfold first_failed_precondition, planner, get_deploy_safe_tx, bind, rpc, raise, ret.
  destruct (_ <? _); [reflexivity|].
  rewrite Hb. destruct (balance =? 0); [reflexivity|].
  rewrite Hn, Hs. simpl.
  destruct (is_empty code_safe); simpl; [reflexivity|].
  rewrite Hf. simpl.
  destruct (is_empty code_factory); simpl; [reflexivity|].
  intros m. apply builder_no_value_error.
Qed.

(** ** C10 *)
(** C10: two successful planner runs that differ only in the node url
    return the same transaction nonce: the transaction count of the sender
    as answered by the global client [w3]. *)
Theorem nonce_from_global_client (randbelow : Z -> Z) (url1 url2 : string)
    (sender : Address) (owners : list Address) (threshold : Z)
    (salt_nonce : option Z) (l1 l2 : list event) (tx1 tx2 : BuiltTx) (r1 r2 : Address) :
  snd (planner randbelow url1 sender owners threshold salt_nonce l1) = Ok (tx1, r1) ->
  snd (planner randbelow url2 sender owners threshold salt_nonce l2) = Ok (tx2, r2) ->
  b_nonce tx1 = b_nonce tx2 /\
  b_nonce tx1 = get_transaction_count w3 (checksum_address sender).
Proof.
  intros H1 H2.
  destruct (planner_ok _ _ _ _ _ _ _ _ _ H1) as [l1' B1].
  destruct (planner_ok _ _ _ _ _ _ _ _ _ H2) as [l2' B2].
  destruct (builder_ok _ _ _ _ _ _ _ _ _ _ _ B1) as (_ & _ & _ & _ & [k1 [K1 N1]] & _).
  destruct (builder_ok _ _ _ _ _ _ _ _ _ _ _ B2) as (_ & _ & _ & _ & [k2 [K2 N2]] & _).
  rewrite N1, N2, K1. rewrite K1 in K2. injection K2 as <-. auto.
Qed.

(** * Further properties of the builder and the planner *)

(** X1: a successful builder run returns the gas-price override unchanged
    (absent when none is given), from the sender, to the factory. *)
Theorem builder_gas_price_passthrough (pf : ProxyFactory) (master_copy address : Address)
    (initializer : bytes) (salt_nonce : Z) (gas gas_price nonce : option Z)
    (l : list event) (tx : BuiltTx) (r : Address) :
  snd (builder pf master_copy address initializer salt_nonce gas gas_price nonce l)
  = Ok (tx, r) ->
  b_gasPrice tx = gas_price /\ b_from tx = address /\ b_to tx = pf_address pf.
Proof.
  unfold builder, _build_tx_deploy_proxy_contract_with_nonce, buildTransaction,
    bind, rpc, ret.
  intros H. destruct gas, gas_price, nonce; crunch;
    injection H as <- <-; auto.
Qed.



(** Unfold a planner run down to its RPC calls. *)
Ltac unfold_run :=
  unfold planner, get_deploy_safe_tx, builder, _build_tx_deploy_proxy_contract_with_nonce,
    buildTransaction, select_salt, bind, rpc, raise, ret in *.



(** X6: a successful planner run returns a transaction from the
    checksummed sender to the proxy factory, with no gas price, whose gas is
    the node's estimate plus 50000, and the address answered by the
    simulated [createProxyWithNonce] call. *)
Theorem planner_success_output (randbelow : Z -> Z) (url : string) (sender : Address)
    (owners : list Address) (threshold : Z) (salt_nonce : option Z)
    (l : list event) (tx : BuiltTx) (r : Address) :
  snd (planner randbelow url sender owners threshold salt_nonce l) = Ok (tx, r) ->
  let pf := mkProxyFactory PROXY_FACTORY_CONTRACT url in
  let account := checksum_address sender in
  let fn_data :=
    encode_createProxyWithNonce SAFE_CONTRACT
      (encode_setup owners threshold NULL_ADDRESS [] DEFAULT_CALLBACK_HANDLER
                    NULL_ADDRESS 0 NULL_ADDRESS)
      (select_salt randbelow salt_nonce) in
  b_from tx = account /\ b_to tx = PROXY_FACTORY_CONTRACT /\ b_gasPrice tx = None /\
  estimate_gas (EthereumClient url)
    {| tx_from := account; tx_to := Some PROXY_FACTORY_CONTRACT; tx_data := fn_data;
       tx_gas := None; tx_gasPrice := None; tx_nonce := None |} = Some (b_gas tx - 50000) /\
  call (EthereumClient url) (create_proxy_call pf account fn_data) = Some r.
Proof.
  intros H. cbv zeta. unfold_run. crunch;
    simpl in H; injection H as <- <-; cbn;
    rewrite Z.add_simpl_r; auto.
Qed.

(** X7: when the node reports no code at the Safe master copy, the planner
    fails with the network error without querying the code at the proxy
    factory: the [or] of the code check short-circuits. *)
Theorem planner_code_check_short_circuit (randbelow : Z -> Z) (url : string)
    (sender : Address) (owners : list Address) (threshold : Z)
    (salt_nonce : option Z) (l : list event) (balance : Z) (name : string) :
  threshold <= Z.of_nat (List.length owners) ->
  get_balance (EthereumClient url) (checksum_address sender) = Some balance ->
  balance <> 0 ->
  get_network (EthereumClient url) = Some name ->
  getCode (EthereumClient url) SAFE_CONTRACT = Some [] ->
  planner randbelow url sender owners threshold salt_nonce l
  = (app l [(Node url, QBalance (checksum_address sender)); (Node url, QNetwork);
            (Node url, QGetCode SAFE_CONTRACT)],
     Err (ValueError msg_network)).
Proof.
  intros Ht Hb Hnz Hn Hs.
  assert (E : (Z.of_nat (List.length owners) <? threshold) = false)
    by (apply Z.ltb_ge; exact Ht).
  assert (E' : (balance =? 0) = false) by (apply Z.eqb_neq; exact Hnz).
  unfold planner, get_deploy_safe_tx, bind, rpc, raise.
  rewrite E, Hb. cbn. rewrite E', Hn, Hs. cbn.
  rewrite <- !app_assoc. reflexivity.
Qed.





End Proofs.

(** * Runs on the concrete chain *)

(** ** C1 *)
(** C1: the builder called with the nonce override 5, while the global
    client reports transaction count 3, returns nonce 3: the override is
    overwritten by [w3.eth.get_transaction_count(address)]. *)
Lemma nonce_override_overwritten :
  match snd (demo_builder demo_pf SAFE_CONTRACT demo_sender [] 42 None None (Some 5) []) with
  | Ok (tx, _) => b_nonce tx = Some 3
  | Err _ => False
  end.
Proof. vm_compute. reflexivity. Qed.

(** ** C2 *)
(** C2: the builder called with the gas override 100000 returns gas
    150000: the 50000 margin is added to the override as well. *)
Lemma gas_override_gets_margin :
  match snd (demo_builder demo_pf SAFE_CONTRACT demo_sender [] 42 (Some 100000) None None []) with
  | Ok (tx, _) => b_gas tx = 150000
  | Err _ => False
  end.
Proof. vm_compute. reflexivity. Qed.

(** ** C3 *)
(** C3: the request with threshold 0 and one owner violates [threshold >= 1]
    but is not rejected: the planner queries the chain and succeeds. *)
Lemma threshold_zero_not_rejected :
  let run := demo_planner demo_node demo_url demo_sender [owner_A] 0 (Some 42) [] in
  snd run <> Err (ValueError msg_threshold) /\ fst run <> [] /\
  exists tx r, snd run = Ok (tx, r).
Proof.
  vm_compute. split; [discriminate|]. split; [discriminate|]. eauto.
Qed.

(** Owners are counted with repetitions: [owner_A] listed twice admits
    threshold 2 although there is a single distinct owner. *)
Lemma duplicate_owners_counted_twice :
  exists tx r,
    snd (demo_planner demo_node demo_url demo_sender [owner_A; owner_A] 2 (Some 42) [])
    = Ok (tx, r).
Proof. vm_compute. eauto. Qed.

(** Witness of C3 (amended): two owners, threshold 3. *)
Lemma threshold_rejected_before_io_witness :
  Z.of_nat (List.length [owner_A; owner_B]) < 3 /\
  demo_planner demo_node demo_url demo_sender [owner_A; owner_B] 3 None []
  = ([], Err (ValueError msg_threshold)).
Proof.
  split; [simpl; lia|].
  apply threshold_rejected_before_io. simpl. lia.
Defined.

(** Witness of C4: an unfunded sender. *)
Lemma zero_balance_insufficient_funds_witness :
  2 <= Z.of_nat (List.length [owner_A; owner_B; owner_C]) /\
  get_balance (demo_node_unfunded demo_url) demo_sender = Some 0 /\
  demo_planner demo_node_unfunded demo_url demo_sender [owner_A; owner_B; owner_C] 2 (Some 42) []
  = ([(Node demo_url, QBalance demo_sender)], Err (ValueError msg_funds)).
Proof.
  split; [simpl; lia|]. split; [reflexivity|].
  apply (zero_balance_insufficient_funds demo_node_unfunded demo_w3 (fun a => a)).
  - simpl. lia.
  - reflexivity.
Defined.

(** Witness of C5: a funded sender on a chain without the Safe contracts. *)
Lemma missing_code_unsupported_network_witness :
  snd (demo_planner demo_node_bare demo_url demo_sender [owner_A; owner_B; owner_C] 2 (Some 42) [])
  = Err (ValueError msg_network).
Proof.
  apply (missing_code_unsupported_network demo_node_bare demo_w3 (fun a => a) demo_setup
           demo_create (fun _ => 7) demo_url demo_sender [owner_A; owner_B; owner_C] 2
           (Some 42) [] 1 "mainnet" [] []);
    try reflexivity.
  - simpl. lia.
  - lia.
  - left. reflexivity.
Defined.

(** Witness of C6: two senders and two sets of overrides, one simulated
    address. *)
Lemma predicted_address_deterministic_witness :
  snd (demo_builder demo_pf SAFE_CONTRACT demo_sender [] 42 None None None [])
  = Ok ({| b_from := demo_sender; b_to := PROXY_FACTORY_CONTRACT;
           b_data := [Byte.x16; Byte.x88; Byte.xf0; Byte.xb9]; b_gas := 170000;
           b_gasPrice := None; b_nonce := Some 3 |}, demo_proxy) /\
  snd (demo_builder demo_pf SAFE_CONTRACT owner_A [] 42 (Some 100000) (Some 5) (Some 9) [])
  = Ok ({| b_from := owner_A; b_to := PROXY_FACTORY_CONTRACT;
           b_data := [Byte.x16; Byte.x88; Byte.xf0; Byte.xb9]; b_gas := 150000;
           b_gasPrice := Some 5; b_nonce := Some 3 |}, demo_proxy) /\
  demo_proxy = demo_proxy /\ demo_proxy = demo_proxy.
Proof.
  assert (H1 : snd (demo_builder demo_pf SAFE_CONTRACT demo_sender [] 42 None None None [])
    = Ok ({| b_from := demo_sender; b_to := PROXY_FACTORY_CONTRACT;
             b_data := [Byte.x16; Byte.x88; Byte.xf0; Byte.xb9]; b_gas := 170000;
             b_gasPrice := None; b_nonce := Some 3 |}, demo_proxy))
    by (vm_compute; reflexivity).
  assert (H2 : snd (demo_builder demo_pf SAFE_CONTRACT owner_A [] 42 (Some 100000) (Some 5)
                                 (Some 9) [])
    = Ok ({| b_from := owner_A; b_to := PROXY_FACTORY_CONTRACT;
             b_data := [Byte.x16; Byte.x88; Byte.xf0; Byte.xb9]; b_gas := 150000;
             b_gasPrice := Some 5; b_nonce := Some 3 |}, demo_proxy))
    by (vm_compute; reflexivity).
  split; [exact H1|]. split; [exact H2|].
  destruct (predicted_address_deterministic demo_node demo_w3 demo_create demo_pf
              SAFE_CONTRACT [] 42 demo_proxy demo_sender owner_A None (Some 100000)
              None (Some 5) None (Some 9) [] [] _ _ _ _
              (fun t => eq_refl) H1 H2) as [_ [E1 E2]].
  split; assumption.
Defined.

(** Witness of C7: two runs from different nodes and senders. *)
Lemma deploy_data_idempotent_witness :
  let data := [Byte.x16; Byte.x88; Byte.xf0; Byte.xb9; Byte.xb6; Byte.x3e; Byte.x80; Byte.x0d] in
  snd (demo_planner demo_node demo_url demo_sender [owner_A; owner_B; owner_C] 2 (Some 42) [])
  = Ok ({| b_from := demo_sender; b_to := PROXY_FACTORY_CONTRACT; b_data := data;
           b_gas := 170000; b_gasPrice := None; b_nonce := Some 3 |}, demo_proxy) /\
  snd (demo_planner demo_node "http://node2:8545" owner_B [owner_A; owner_B; owner_C] 2
         (Some 42) [])
  = Ok ({| b_from := owner_B; b_to := PROXY_FACTORY_CONTRACT; b_data := data;
           b_gas := 170000; b_gasPrice := None; b_nonce := Some 3 |}, demo_proxy) /\
  data = data /\
  data = demo_create SAFE_CONTRACT
           (demo_setup [owner_A; owner_B; owner_C] 2 NULL_ADDRESS [] DEFAULT_CALLBACK_HANDLER
                       NULL_ADDRESS 0 NULL_ADDRESS) 42.
Proof.
  intros data.
  assert (H1 : snd (demo_planner demo_node demo_url demo_sender [owner_A; owner_B; owner_C] 2
                                 (Some 42) [])
    = Ok ({| b_from := demo_sender; b_to := PROXY_FACTORY_CONTRACT; b_data := data;
             b_gas := 170000; b_gasPrice := None; b_nonce := Some 3 |}, demo_proxy))
    by (vm_compute; reflexivity).
  assert (H2 : snd (demo_planner demo_node "http://node2:8545" owner_B
                                 [owner_A; owner_B; owner_C] 2 (Some 42) [])
    = Ok ({| b_from := owner_B; b_to := PROXY_FACTORY_CONTRACT; b_data := data;
             b_gas := 170000; b_gasPrice := None; b_nonce := Some 3 |}, demo_proxy))
    by (vm_compute; reflexivity).
  split; [exact H1|]. split; [exact H2|].
  exact (deploy_data_idempotent demo_node demo_w3 (fun a => a) demo_setup demo_create
           (fun _ => 7) (fun _ => 7) demo_url "http://node2:8545" demo_sender owner_B
           [owner_A; owner_B; owner_C] 2 42 [] [] _ _ _ _ H1 H2).
Defined.

(** Witness of C8: no salt supplied, the random draw is 7. *)
Lemma salt_nonce_selection_witness :
  0 <= 7 < 2 ^ 256 /\
  exists salt,
    [Byte.x16; Byte.x88; Byte.xf0; Byte.xb9; Byte.xb6; Byte.x3e; Byte.x80; Byte.x0d]
    = demo_create SAFE_CONTRACT
        (demo_setup [owner_A; owner_B; owner_C] 2 NULL_ADDRESS [] DEFAULT_CALLBACK_HANDLER
                    NULL_ADDRESS 0 NULL_ADDRESS) salt /\
    salt = 7 /\ 0 <= salt <= 2 ^ 256 - 1.
Proof.
  assert (Hrb : 0 <= (fun _ : Z => 7) (2 ^ 256) < 2 ^ 256) by lia.
  assert (H : snd (demo_planner demo_node demo_url demo_sender [owner_A; owner_B; owner_C] 2
                                None [])
    = Ok ({| b_from := demo_sender; b_to := PROXY_FACTORY_CONTRACT;
             b_data := [Byte.x16; Byte.x88; Byte.xf0; Byte.xb9; Byte.xb6; Byte.x3e;
                        Byte.x80; Byte.x0d];
             b_gas := 170000; b_gasPrice := None; b_nonce := Some 3 |}, demo_proxy))
    by (vm_compute; reflexivity).
  split; [lia|].
  exact (salt_nonce_selection demo_node demo_w3 (fun a => a) demo_setup demo_create
           (fun _ => 7) demo_url demo_sender [owner_A; owner_B; owner_C] 2 None [] _ _ Hrb H).
Defined.

(** Witness of C9: an unfunded sender on a chain without the Safe
    contracts gets the funds error. *)
Lemma precondition_check_order_witness :
  snd (demo_planner (fun _ => demo_client 0 [] 7) demo_url demo_sender
         [owner_A; owner_B; owner_C] 2 (Some 42) [])
  = Err (ValueError msg_funds).
Proof.
  exact (precondition_check_order (fun _ => demo_client 0 [] 7) demo_w3 (fun a => a)
           demo_setup demo_create (fun _ => 7) demo_url demo_sender
           [owner_A; owner_B; owner_C] 2 (Some 42) [] 0 "mainnet" [] []
           eq_refl eq_refl eq_refl eq_refl).
Defined.

(** Witness of C10: two node urls, one global transaction count. *)
Lemma nonce_from_global_client_witness :
  Some 3 = Some 3 /\ Some 3 = get_transaction_count demo_w3 demo_sender.
Proof.
  assert (H1 : snd (demo_planner demo_nodes demo_url demo_sender [owner_A; owner_B; owner_C] 2
                                 (Some 42) [])
    = Ok ({| b_from := demo_sender; b_to := PROXY_FACTORY_CONTRACT;
             b_data := [Byte.x16; Byte.x88; Byte.xf0; Byte.xb9; Byte.xb6; Byte.x3e;
                        Byte.x80; Byte.x0d];
             b_gas := 170000; b_gasPrice := None; b_nonce := Some 3 |}, demo_proxy))
    by (vm_compute; reflexivity).
  assert (H2 : snd (demo_planner demo_nodes "http://node2:8545" demo_sender
                                 [owner_A; owner_B; owner_C] 2 (Some 42) [])
    = Ok ({| b_from := demo_sender; b_to := PROXY_FACTORY_CONTRACT;
             b_data := [Byte.x16; Byte.x88; Byte.xf0; Byte.xb9; Byte.xb6; Byte.x3e;
                        Byte.x80; Byte.x0d];
             b_gas := 170000; b_gasPrice := None; b_nonce := Some 3 |}, demo_proxy))
    by (vm_compute; reflexivity).
  exact (nonce_from_global_client demo_nodes demo_w3 (fun a => a) demo_setup demo_create
           (fun _ => 7) demo_url "http://node2:8545" demo_sender [owner_A; owner_B; owner_C]
           2 (Some 42) [] [] _ _ _ _ H1 H2).
Defined.

(** Witness of X1: gas price 5, gas 100000 and nonce 9 supplied. *)
Lemma builder_gas_price_passthrough_witness :
  snd (demo_builder demo_pf SAFE_CONTRACT owner_A [] 42 (Some 100000) (Some 5) (Some 9) [])
  = Ok (demo_tx owner_A demo_create_empty 150000 (Some 5), demo_proxy) /\
  b_gasPrice (demo_tx owner_A demo_create_empty 150000 (Some 5)) = Some 5 /\
  b_from (demo_tx owner_A demo_create_empty 150000 (Some 5)) = owner_A /\
  b_to (demo_tx owner_A demo_create_empty 150000 (Some 5)) = pf_address demo_pf.
Proof.
  assert (H : snd (demo_builder demo_pf SAFE_CONTRACT owner_A [] 42 (Some 100000) (Some 5)
                                (Some 9) [])
              = Ok (demo_tx owner_A demo_create_empty 150000 (Some 5), demo_proxy))
    by (vm_compute; reflexivity).
  split; [exact H|].
  exact (builder_gas_price_passthrough demo_node demo_w3 demo_create demo_pf SAFE_CONTRACT
           owner_A [] 42 (Some 100000) (Some 5) (Some 9) [] _ _ H).
Defined.





(** Witness of X6: the transaction and address of a successful plan. *)
Lemma planner_success_output_witness :
  snd (demo_planner demo_node demo_url demo_sender [owner_A; owner_B; owner_C] 2 (Some 42) [])
  = Ok (demo_tx demo_sender demo_deploy_data 170000 None, demo_proxy) /\
  demo_sender = demo_sender /\ PROXY_FACTORY_CONTRACT = PROXY_FACTORY_CONTRACT /\
  (None : option Z) = None /\
  estimate_gas (demo_node demo_url)
    {| tx_from := demo_sender; tx_to := Some PROXY_FACTORY_CONTRACT;
       tx_data := demo_deploy_data; tx_gas := None; tx_gasPrice := None;
       tx_nonce := None |} = Some (170000 - 50000) /\
  call (demo_node demo_url) (create_proxy_call demo_pf demo_sender demo_deploy_data)
  = Some demo_proxy.
Proof.
  assert (H : snd (demo_planner demo_node demo_url demo_sender [owner_A; owner_B; owner_C] 2
                                (Some 42) [])
              = Ok (demo_tx demo_sender demo_deploy_data 170000 None, demo_proxy))
    by (vm_compute; reflexivity).
  split; [exact H|].
  exact (planner_success_output demo_node demo_w3 (fun a => a) demo_setup demo_create
           (fun _ => 7) demo_url demo_sender [owner_A; owner_B; owner_C] 2 (Some 42) []
           _ _ H).
Defined.

(** Witness of X7: a funded sender on a chain without the Safe contracts. *)
Lemma planner_code_check_short_circuit_witness :
  demo_planner demo_node_bare demo_url demo_sender [owner_A; owner_B] 1 (Some 42) []
  = ([(Node demo_url, QBalance demo_sender); (Node demo_url, QNetwork);
      (Node demo_url, QGetCode SAFE_CONTRACT)], Err (ValueError msg_network)).
Proof.
  exact (planner_code_check_short_circuit demo_node_bare demo_w3 (fun a => a) demo_setup
           demo_create (fun _ => 7) demo_url demo_sender [owner_A; owner_B] 1 (Some 42) []
           1 "mainnet" ltac:(simpl; lia) eq_refl ltac:(lia) eq_refl eq_refl).
Defined.


